(** * Checkout coordination (refactor_solid.py)

    A shallow embedding of the checkout script: the [Order] data class, the
    two strategy interfaces with their concrete classes, the coordinator
    [CheckoutService] and the module-level script, followed by the
    properties of the coordination contract.

    Python objects are mutable and passed by reference, so orders live in a
    store and every method receives a reference.  Code runs in a state and
    exception monad; the strategies run over the part of the store a
    strategy is handed (orders and output sinks), the coordinator over a
    machine that also holds the coordinator objects and a record of what the
    coordinator did. *)

From Stdlib Require Import String Ascii ZArith List Bool Lia.
Import ListNotations.
Local Open Scope string_scope.

(** ** Python values and control *)

(** What a method may hand back.  [process] is annotated [-> bool], which
    Python does not enforce: [run_checkout] only tests the result for
    truthiness. *)
Inductive value : Type :=
| VNone
| VBool (b : bool)
| VInt (z : Z)
| VStr (s : string).

(** [bool(v)] *)
Definition truthy (v : value) : bool :=
  match v with
  | VNone => false
  | VBool b => b
  | VInt z => negb (z =? 0)%Z
  | VStr s => negb (s =? "")
  end.

(** An exception is identified by its message. *)
Definition exn : Type := string.

Inductive outcome (A : Type) : Type :=
| Return (a : A)
| Raise (e : exn).
Arguments Return {A} a.
Arguments Raise {A} e.

(** Code over a state [S]: it ends by returning or by raising, and leaves a
    state behind either way. *)
Definition prog (S A : Type) : Type := S -> outcome A * S.

Definition ret {S A} (a : A) : prog S A := fun s => (Return a, s).

Definition raise {S A} (e : exn) : prog S A := fun s => (Raise e, s).

(** Sequencing: an exception skips the rest (there is no [try] in the
    source). *)
Definition bind {S A B} (c : prog S A) (k : A -> prog S B) : prog S B :=
  fun s =>
    match c s with
    | (Return a, s') => k a s'
    | (Raise e, s') => (Raise e, s')
    end.

Notation "x <- c1 ;; c2" := (bind c1 (fun x => c2))
  (at level 61, c1 at next level, right associativity).
Notation "c1 ;; c2" := (bind c1 (fun _ => c2))
  (at level 61, right associativity).

(** The [pass] statement. *)
Definition pass {S} : prog S unit := ret tt.

(** ** Data model *)

(** [@dataclass class Order].  The prices of the script are integer
    literals; the field is stored and never computed on. *)
Record Order : Type := mkOrder {
  customer_name : string;
  total_price : Z;
  status : string
}.

(** The generated [__init__]: [status] defaults to ["open"]. *)
Definition Order_init (name : string) (price : Z) (st : option string) : Order :=
  mkOrder name price (match st with Some s => s | None => "open" end).

Definition with_status (v : string) (o : Order) : Order :=
  mkOrder (customer_name o) (total_price o) v.

Definition with_total_price (p : Z) (o : Order) : Order :=
  mkOrder (customer_name o) p (status o).

(** References to objects. *)
Definition ref : Type := nat.

(** What a strategy can reach: the order objects, the logger's sink and
    standard output.  [next_ref] is the next unused reference. *)
Record World : Type := mkWorld {
  heap : ref -> Order;
  next_ref : ref;
  log : list string;
  stdout : list string
}.

Definition py : Type -> Type := prog World.

Definition store (order : ref) (o : Order) (h : ref -> Order) : ref -> Order :=
  fun r => if Nat.eqb r order then o else h r.

(** [order.<field>] *)
Definition getattr {A} (field : Order -> A) (order : ref) : py A :=
  fun w => (Return (field (heap w order)), w).

(** [order.<field> = v], as the update [change] of the object. *)
Definition setattr (order : ref) (change : Order -> Order) : py unit :=
  fun w => (Return tt,
            mkWorld (store order (change (heap w order)) (heap w))
                    (next_ref w) (log w) (stdout w)).

(** [logger.info(msg)]: the level is INFO, so the record is emitted.  Only
    the message is kept (the format also prints the time and the level). *)
Definition logger_info (msg : string) : py unit :=
  fun w => (Return tt, mkWorld (heap w) (next_ref w) (log w ++ [msg]) (stdout w)).

(** [print(msg)] *)
Definition print (msg : string) : py unit :=
  fun w => (Return tt, mkWorld (heap w) (next_ref w) (log w) (stdout w ++ [msg])).

(** [Order(name, price)] and [Order(name, price, status)]: a new object. *)
Definition new_Order (name : string) (price : Z) (st : option string) : py ref :=
  fun w => (Return (next_ref w),
            mkWorld (store (next_ref w) (Order_init name price st) (heap w))
                    (S (next_ref w)) (log w) (stdout w)).

(** ** The contracts *)

(** [class IPaymentProcessor(ABC)]: an object with a [process] method. *)
Record IPaymentProcessor : Type := { process : ref -> py value }.

(** [class INotificationService(ABC)]: an object with a [send] method. *)
Record INotificationService : Type := { send : ref -> py value }.

(** ** The concrete classes *)

Definition CreditCardProcessor : IPaymentProcessor :=
  {| process := fun order =>
       logger_info "Payment: Memproses Kartu Kredit." ;;
       ret (VBool true) |}.

Definition EmailNotifier : INotificationService :=
  {| send := fun order =>
       name <- getattr customer_name order ;;
       logger_info ("Notif: Mengirim email konfirmasi ke " ++ name ++ ".") ;;
       ret VNone |}.

Definition QrisProcessor : IPaymentProcessor :=
  {| process := fun order =>
       logger_info "Payment: Memproses QRIS." ;;
       ret (VBool true) |}.

(** ** The coordinator *)

(** The attributes of a [CheckoutService] object. *)
Record CheckoutService : Type := {
  payment_processor : IPaymentProcessor;
  notifier : INotificationService
}.

(** What the coordinator did, in the order it did it.  A call is recorded
    with the order it was given, the fields that order had when the call
    was made, and how the call ended. *)
Inductive event : Type :=
| Called_process (order : ref) (seen : Order) (result : outcome value)
| Assigned_status (order : ref) (v : string)
| Called_send (order : ref) (seen : Order) (result : outcome value).

(** The machine the coordinator runs on.  The coordinator objects and the
    record of events are out of the strategies' reach: a strategy is
    handed the order and nothing else. *)
Record Machine : Type := mkMachine {
  world : World;
  services : ref -> CheckoutService;
  next_service : ref;
  trace : list event
}.

Definition M : Type -> Type := prog Machine.

(** Code of the strategies' level, run by the coordinator's level. *)
Definition lift {A} (c : py A) : M A :=
  fun m =>
    let '(res, w) := c (world m) in
    (res, mkMachine w (services m) (next_service m) (trace m)).

Definition emit (e : event) : M unit :=
  fun m => (Return tt,
            mkMachine (world m) (services m) (next_service m) (trace m ++ [e])).

(** [self.<attribute>] *)
Definition getself {A} (attribute : CheckoutService -> A) (self : ref) : M A :=
  fun m => (Return (attribute (services m self)), m).

(** A call [target.method(order)] made by the coordinator. *)
Definition invoke (record : ref -> Order -> outcome value -> event)
    (method : ref -> py value) (order : ref) : M value :=
  fun m =>
    let seen := heap (world m) order in
    let '(res, w) := method order (world m) in
    (res, mkMachine w (services m) (next_service m)
                    (trace m ++ [record order seen res])).

(** [order.status = v] in the coordinator. *)
Definition assign_status (order : ref) (v : string) : M unit :=
  lift (setattr order (with_status v)) ;;
  emit (Assigned_status order v).

(** [CheckoutService(payment_processor=..., notifier=...)] *)
Definition new_CheckoutService (payment_processor : IPaymentProcessor)
    (notifier : INotificationService) : M ref :=
  fun m =>
    let self := next_service m in
    (Return self,
     mkMachine (world m)
               (fun r => if Nat.eqb r self
                         then Build_CheckoutService payment_processor notifier
                         else services m r)
               (S self) (trace m)).

Definition run_checkout (self : ref) (order : ref) : M value :=
  pass ;;
  name <- lift (getattr customer_name order) ;;
  lift (logger_info ("--- Memulai Checkout untuk " ++ name ++ " ---")) ;;
  pp <- getself payment_processor self ;;
  payment_success <- invoke Called_process (process pp) order ;;
  if truthy payment_success then
    assign_status order "paid" ;;
    n <- getself notifier self ;;
    invoke Called_send (send n) order ;;
    lift (logger_info "Checkout Sukses. Transaksi selesai.") ;;
    ret (VBool true)
  else
    ret (VBool false).

(** [run_checkout] with the [pass] statement left out, as the design notes
    ask of a reimplementation. *)
Definition run_checkout_without_pass (self : ref) (order : ref) : M value :=
  name <- lift (getattr customer_name order) ;;
  lift (logger_info ("--- Memulai Checkout untuk " ++ name ++ " ---")) ;;
  pp <- getself payment_processor self ;;
  payment_success <- invoke Called_process (process pp) order ;;
  if truthy payment_success then
    assign_status order "paid" ;;
    n <- getself notifier self ;;
    invoke Called_send (send n) order ;;
    lift (logger_info "Checkout Sukses. Transaksi selesai.") ;;
    ret (VBool true)
  else
    ret (VBool false).

(** ** The script *)

Definition newline : string := String (ascii_of_nat 10) "".

(** Line 88: one notifier object, shared by both coordinators. *)
Definition email_service : INotificationService := EmailNotifier.

Definition cc_processor : IPaymentProcessor := CreditCardProcessor.

Definition qris_processor : IPaymentProcessor := QrisProcessor.

(** Lines 87 to 95.  The script drops what [run_checkout] returns; here the
    order and the result are handed on so that they can be looked at. *)
Definition scenario_1 : M (ref * value) :=
  andi_order <- lift (new_Order "Andi" 500000 None) ;;
  checkout_cc <- new_CheckoutService cc_processor email_service ;;
  lift (print (newline ++ "[Skenario 1: Credit Card]")) ;;
  result <- run_checkout checkout_cc andi_order ;;
  ret (andi_order, result).

(** Lines 103 to 110. *)
Definition scenario_2 : M (ref * value) :=
  budi_order <- lift (new_Order "Budi" 100000 None) ;;
  checkout_qris <- new_CheckoutService qris_processor email_service ;;
  lift (print (newline ++ "[Skenario 2: Pembuktian OCP (QRIS)]")) ;;
  result <- run_checkout checkout_qris budi_order ;;
  ret (budi_order, result).

Definition main : M ((ref * value) * (ref * value)) :=
  a <- scenario_1 ;;
  b <- scenario_2 ;;
  ret (a, b).

(** The interpreter at start-up: no object, nothing written. *)
Definition blank : Order := mkOrder "" 0 "".

Definition boot : Machine :=
  mkMachine (mkWorld (fun _ => blank) 0 [] [])
            (fun _ => Build_CheckoutService CreditCardProcessor EmailNotifier)
            0 [].

(** ** Other implementations of the contracts

    The interfaces fix a signature and nothing more, so the coordinator can
    be handed any object with the right method.  These are the ones the
    properties below are tried against. *)

(** A notifier that puts the order back on sale:
    [def send(self, order): order.status = "open"]. *)
Definition ReopeningNotifier : INotificationService :=
  {| send := fun order =>
       setattr order (with_status "open") ;;
       ret VNone |}.

(** A notifier whose mail server is away:
    [def send(self, order): raise ConnectionError("mail server unreachable")]. *)
Definition UnreachableNotifier : INotificationService :=
  {| send := fun order => raise "mail server unreachable" |}.

(** A processor that reports failure and touches nothing:
    [def process(self, order): return False]. *)
Definition RefusingProcessor : IPaymentProcessor :=
  {| process := fun order => ret (VBool false) |}.

(** A processor that hands back a receipt number instead of a boolean:
    [def process(self, order): return "receipt-001"]. *)
Definition ReceiptProcessor : IPaymentProcessor :=
  {| process := fun order => ret (VStr "receipt-001") |}.

(** ** What the program does *)

(** The payment classes of the source. *)
Inductive payment_class : Type := CreditCard | Qris.

Definition payment_object (c : payment_class) : IPaymentProcessor :=
  match c with
  | CreditCard => CreditCardProcessor
  | Qris => QrisProcessor
  end.

Definition payment_line (c : payment_class) : string :=
  match c with
  | CreditCard => "Payment: Memproses Kartu Kredit."
  | Qris => "Payment: Memproses QRIS."
  end.

(** What the program does: it constructs orders without giving a status,
    constructs coordinators from its own classes, prints, runs checkouts,
    and (through the coordinator or not) calls its strategies. *)
Inductive op : Type :=
| New_order (name : string) (price : Z)
| New_service (c : payment_class)
| Say (msg : string)
| Checkout (self order : ref)
| Process (c : payment_class) (order : ref)
| Send (order : ref).

Definition perform (o : op) : M unit :=
  match o with
  | New_order name price => lift (new_Order name price None) ;; ret tt
  | New_service c =>
      new_CheckoutService (payment_object c) EmailNotifier ;; ret tt
  | Say msg => lift (print msg)
  | Checkout self order => run_checkout self order ;; ret tt
  | Process c order => lift (process (payment_object c) order) ;; ret tt
  | Send order => lift (send EmailNotifier order) ;; ret tt
  end.

(** An operation names objects that exist. *)
Definition enabled (m : Machine) (o : op) : bool :=
  match o with
  | Checkout self order =>
      Nat.ltb self (next_service m) && Nat.ltb order (next_ref (world m))
  | Process _ order => Nat.ltb order (next_ref (world m))
  | Send order => Nat.ltb order (next_ref (world m))
  | _ => true
  end.

(** The machines the program can be in. *)
Inductive reachable : Machine -> Prop :=
| reachable_boot : reachable boot
| reachable_step (m : Machine) (o : op) :
    reachable m -> enabled m o = true -> reachable (snd (perform o m)).

(** A run of operations, one after the other. *)
Definition run_ops (ops : list op) (m : Machine) : Machine :=
  fold_left (fun m' o => snd (perform o m')) ops m.

Fixpoint allowed (ops : list op) (m : Machine) : bool :=
  match ops with
  | [] => true
  | o :: ops' => enabled m o && allowed ops' (snd (perform o m))
  end.

(** The script, operation by operation. *)
Definition script : list op :=
  [New_order "Andi" 500000;
   New_service CreditCard;
   Say (newline ++ "[Skenario 1: Credit Card]");
   Checkout 0 0;
   New_order "Budi" 100000;
   New_service Qris;
   Say (newline ++ "[Skenario 2: Pembuktian OCP (QRIS)]");
   Checkout 1 1].

(** ** Reading an execution *)

(** The world in which [run_checkout] calls [process]: the opening line has
    been logged. *)
Definition at_payment (order : ref) (w : World) : World :=
  snd (logger_info
         ("--- Memulai Checkout untuk " ++ customer_name (heap w order) ++ " ---") w).

(** The world in which [run_checkout] calls [send], from the world [process]
    left. *)
Definition marked_paid (order : ref) (w : World) : World :=
  snd (setattr order (with_status "paid") w).

(** The world [run_checkout] returns [True] in, from the world [send] left. *)
Definition closed (w : World) : World :=
  snd (logger_info "Checkout Sukses. Transaksi selesai." w).

(** The events recorded between machine [m] and a later machine [m']. *)
Definition since (m m' : Machine) : list event :=
  skipn (length (trace m)) (trace m').
Arguments since : simpl never.

(** The orders [process] was called with. *)
Fixpoint payments (t : list event) : list ref :=
  match t with
  | [] => []
  | Called_process order _ _ :: t' => order :: payments t'
  | _ :: t' => payments t'
  end.

(** The orders [send] was called with. *)
Fixpoint sends (t : list event) : list ref :=
  match t with
  | [] => []
  | Called_send order _ _ :: t' => order :: sends t'
  | _ :: t' => sends t'
  end.

(** The assignments the coordinator made. *)
Fixpoint writes (t : list event) : list (ref * string) :=
  match t with
  | [] => []
  | Assigned_status order v :: t' => (order, v) :: writes t'
  | _ :: t' => writes t'
  end.

(** Did the call end by returning something truthy? *)
Definition succeeded (res : outcome value) : bool :=
  match res with
  | Return v => truthy v
  | Raise _ => false
  end.

Definition assigned_paid (order : ref) (before : option event) : bool :=
  match before with
  | Some (Assigned_status o v) => Nat.eqb o order && (v =? "paid")
  | _ => false
  end.

(** Every call of [send] in [t] was made on an order whose status was
    "paid" when the call was made, and comes straight after the assignment
    of "paid" to that order.  [before] is the event in front of [t]. *)
Fixpoint paid_before_send (before : option event) (t : list event) : bool :=
  match t with
  | [] => true
  | e :: t' =>
      match e with
      | Called_send order seen _ => (status seen =? "paid") && assigned_paid order before
      | _ => true
      end && paid_before_send (Some e) t'
  end.

Definition paid_for (order : ref) (before : option event) : bool :=
  match before with
  | Some (Called_process o _ res) => Nat.eqb o order && succeeded res
  | _ => false
  end.

(** Every assignment in [t] assigns "paid", and comes straight after a call
    of [process] on the same order that reported success.  [before] is the
    event in front of [t]. *)
Fixpoint paid_after_payment (before : option event) (t : list event) : bool :=
  match t with
  | [] => true
  | e :: t' =>
      match e with
      | Assigned_status order v => (v =? "paid") && paid_for order before
      | _ => true
      end && paid_after_payment (Some e) t'
  end.

(** What holds of every machine the program can be in. *)
Definition sound (m : Machine) : Prop :=
  (forall self, self < next_service m ->
     exists c, services m self = Build_CheckoutService (payment_object c) EmailNotifier) /\
  (forall r, r < next_ref (world m) ->
     status (heap (world m) r) = "open" \/ status (heap (world m) r) = "paid") /\
  paid_after_payment None (trace m) = true.

(** ** A counter with one order and one coordinator *)

(** [order = Order(name, price[, status]); CheckoutService(pp, n)] at
    start-up: the order is object 0 and the coordinator is object 0. *)
Definition desk (pp : IPaymentProcessor) (n : INotificationService)
    (name : string) (price : Z) (st : option string) : Machine :=
  snd ((order <- lift (new_Order name price st) ;; new_CheckoutService pp n) boot).

(** ** Strategies that hold a coordinator

    A strategy object can have been handed a coordinator: nothing in the
    source does so, and nothing in it prevents it.  Its methods can then
    assign to the coordinator's attributes while [run_checkout] runs.  To
    have such strategies, the coordinator objects are put within the
    strategies' reach, and their attributes are references to the strategy
    objects. *)
Module Held.

(** The attributes of a [CheckoutService] object. *)
Record CheckoutService : Type := {
  payment_processor : ref;
  notifier : ref
}.

(** What a strategy can reach: the world and the coordinator objects. *)
Record Reach : Type := mkReach {
  world : World;
  services : ref -> CheckoutService
}.

(** A method of a strategy object, called with an order. *)
Definition method : Type := ref -> prog Reach value.

(** The strategy objects: what [process] and [send] of the object behind a
    reference do. *)
Record Objects : Type := {
  process_of : ref -> method;
  send_of : ref -> method
}.

(** The record of the coordinator's steps stays out of reach. *)
Record Machine : Type := mkMachine {
  reach : Reach;
  trace : list event
}.

Definition M : Type -> Type := prog Machine.

(** Code that touches the world only. *)
Definition in_world {A} (c : py A) : prog Reach A :=
  fun s =>
    let '(res, w) := c (world s) in
    (res, mkReach w (services s)).

Definition lift {A} (c : prog Reach A) : M A :=
  fun m =>
    let '(res, s) := c (reach m) in
    (res, mkMachine s (trace m)).

Definition emit (e : event) : M unit :=
  fun m => (Return tt, mkMachine (reach m) (trace m ++ [e])).

(** [self.<attribute>] *)
Definition getself {A} (attribute : CheckoutService -> A) (self : ref) : M A :=
  fun m => (Return (attribute (services (reach m) self)), m).

(** A call [target.method(order)] made by the coordinator. *)
Definition invoke (record : ref -> Order -> outcome value -> event)
    (target : method) (order : ref) : M value :=
  fun m =>
    let seen := heap (world (reach m)) order in
    let '(res, s) := target order (reach m) in
    (res, mkMachine s (trace m ++ [record order seen res])).

(** [order.status = v] in the coordinator. *)
Definition assign_status (order : ref) (v : string) : M unit :=
  lift (in_world (setattr order (with_status v))) ;;
  emit (Assigned_status order v).

Definition run_checkout (objects : Objects) (self : ref) (order : ref) : M value :=
  pass ;;
  name <- lift (in_world (getattr customer_name order)) ;;
  lift (in_world (logger_info ("--- Memulai Checkout untuk " ++ name ++ " ---"))) ;;
  pp <- getself payment_processor self ;;
  payment_success <- invoke Called_process (process_of objects pp) order ;;
  if truthy payment_success then
    assign_status order "paid" ;;
    n <- getself notifier self ;;
    invoke Called_send (send_of objects n) order ;;
    lift (in_world (logger_info "Checkout Sukses. Transaksi selesai.")) ;;
    ret (VBool true)
  else
    ret (VBool false).

(** The events recorded between machine [m] and a later machine [m']. *)
Definition since (m m' : Machine) : list event :=
  skipn (length (trace m)) (trace m').




End Held.






(** ** Inherited bodies and histories *)

(** The body of the abstract [IPaymentProcessor.process] (lines 20 to 22):
    [pass], so the call returns [None].  A subclass reaches it through
    [super().process(order)]. *)
Definition IPaymentProcessor_process (order : ref) : py value :=
  pass ;;
  ret VNone.

(** A subclass that leaves the work to the body it inherits:
    [def process(self, order): return super().process(order)]. *)
Definition InheritingProcessor : IPaymentProcessor :=
  {| process := IPaymentProcessor_process |}.

(** A history of calls [services[self].run_checkout(order)], one after the
    other; the caller goes on whatever a call returned or raised. *)
Definition checkouts (calls : list (ref * ref)) (m : Machine) : Machine :=
  fold_left (fun m' call => snd (run_checkout (fst call) (snd call) m')) calls m.

(** * Properties *)

(** ** Symbolic execution of [run_checkout] *)

Lemma since_app (w : World) (sv : ref -> CheckoutService) (k : ref) (m : Machine)
    (l : list event) :
  since m (mkMachine w sv k (trace m ++ l)) = l.
Proof.
  unfold since; simpl.
  induction (trace m) as [|e t IH]; simpl; [reflexivity | exact IH].
Qed.

(** [process] raises: the exception leaves [run_checkout] at once. *)
Lemma run_checkout_payment_raises (self order : ref) (m : Machine) (e : exn) (w2 : World) :
  process (payment_processor (services m self)) order (at_payment order (world m))
    = (Raise e, w2) ->
  run_checkout self order m =
    (Raise e,
     mkMachine w2 (services m) (next_service m)
       (trace m ++ [Called_process order (heap (world m) order) (Raise e)])).
Proof.
  intros Hp.
  unfold run_checkout, bind, pass, ret, lift, getattr, getself, invoke; simpl.
  unfold at_payment in Hp; simpl in Hp.
  rewrite Hp. reflexivity.
Qed.

(** [process] returns something falsy. *)
Lemma run_checkout_payment_refused (self order : ref) (m : Machine) (v : value) (w2 : World) :
  process (payment_processor (services m self)) order (at_payment order (world m))
    = (Return v, w2) ->
  truthy v = false ->
  run_checkout self order m =
    (Return (VBool false),
     mkMachine w2 (services m) (next_service m)
       (trace m ++ [Called_process order (heap (world m) order) (Return v)])).
Proof.
  intros Hp Hv.
  unfold run_checkout, bind, pass, ret, lift, getattr, getself, invoke; simpl.
  unfold at_payment in Hp; simpl in Hp.
  rewrite Hp, Hv. reflexivity.
Qed.

(** [process] returns something truthy and [send] returns. *)
Lemma run_checkout_paid (self order : ref) (m : Machine) (v u : value) (w2 w4 : World) :
  process (payment_processor (services m self)) order (at_payment order (world m))
    = (Return v, w2) ->
  truthy v = true ->
  send (notifier (services m self)) order (marked_paid order w2) = (Return u, w4) ->
  run_checkout self order m =
    (Return (VBool true),
     mkMachine (closed w4) (services m) (next_service m)
       (trace m ++ [Called_process order (heap (world m) order) (Return v);
                    Assigned_status order "paid";
                    Called_send order (heap (marked_paid order w2) order) (Return u)])).
Proof.
  intros Hp Hv Hs.
  unfold run_checkout, assign_status, emit, bind, pass, ret, lift, getattr, getself,
    invoke, setattr; simpl.
  unfold at_payment in Hp; simpl in Hp.
  rewrite Hp, Hv; simpl.
  unfold marked_paid, setattr in Hs; simpl in Hs.
  rewrite Hs; simpl.
  rewrite <- !app_assoc. reflexivity.
Qed.

(** [process] returns something truthy and [send] raises. *)
Lemma run_checkout_notification_raises (self order : ref) (m : Machine) (v : value)
    (e : exn) (w2 w4 : World) :
  process (payment_processor (services m self)) order (at_payment order (world m))
    = (Return v, w2) ->
  truthy v = true ->
  send (notifier (services m self)) order (marked_paid order w2) = (Raise e, w4) ->
  run_checkout self order m =
    (Raise e,
     mkMachine w4 (services m) (next_service m)
       (trace m ++ [Called_process order (heap (world m) order) (Return v);
                    Assigned_status order "paid";
                    Called_send order (heap (marked_paid order w2) order) (Raise e)])).
Proof.
  intros Hp Hv Hs.
  unfold run_checkout, assign_status, emit, bind, pass, ret, lift, getattr, getself,
    invoke, setattr; simpl.
  unfold at_payment in Hp; simpl in Hp.
  rewrite Hp, Hv; simpl.
  unfold marked_paid, setattr in Hs; simpl in Hs.
  rewrite Hs; simpl.
  rewrite <- !app_assoc. reflexivity.
Qed.

(** Every run is one of the four above. *)
Lemma run_checkout_runs (self order : ref) (m : Machine) :
  run_checkout self order m =
    let svc := services m self in
    let seen := heap (world m) order in
    match process (payment_processor svc) order (at_payment order (world m)) with
    | (Raise e, w2) =>
        (Raise e,
         mkMachine w2 (services m) (next_service m)
           (trace m ++ [Called_process order seen (Raise e)]))
    | (Return v, w2) =>
        if truthy v then
          match send (notifier svc) order (marked_paid order w2) with
          | (Return u, w4) =>
              (Return (VBool true),
               mkMachine (closed w4) (services m) (next_service m)
                 (trace m ++ [Called_process order seen (Return v);
                              Assigned_status order "paid";
                              Called_send order (heap (marked_paid order w2) order)
                                (Return u)]))
          | (Raise e, w4) =>
              (Raise e,
               mkMachine w4 (services m) (next_service m)
                 (trace m ++ [Called_process order seen (Return v);
                              Assigned_status order "paid";
                              Called_send order (heap (marked_paid order w2) order)
                                (Raise e)]))
          end
        else
          (Return (VBool false),
           mkMachine w2 (services m) (next_service m)
             (trace m ++ [Called_process order seen (Return v)]))
    end.
Proof.
  cbv zeta.
  destruct (process (payment_processor (services m self)) order
              (at_payment order (world m))) as [[v|e] w2] eqn:Hp.
  - destruct (truthy v) eqn:Hv.
    + destruct (send (notifier (services m self)) order (marked_paid order w2))
        as [[u|e] w4] eqn:Hs.
      * exact (run_checkout_paid self order m v u w2 w4 Hp Hv Hs).
      * exact (run_checkout_notification_raises self order m v e w2 w4 Hp Hv Hs).
    + exact (run_checkout_payment_refused self order m v w2 Hp Hv).
  - exact (run_checkout_payment_raises self order m e w2 Hp).
Qed.

Lemma status_marked_paid (order : ref) (w : World) :
  status (heap (marked_paid order w) order) = "paid".
Proof.
  unfold marked_paid, setattr, store; simpl.
  rewrite Nat.eqb_refl. reflexivity.
Qed.

(** A coordinator built from the source's classes pays and notifies. *)
Lemma run_checkout_in_program (self order : ref) (m : Machine) (c : payment_class) :
  services m self = Build_CheckoutService (payment_object c) EmailNotifier ->
  run_checkout self order m =
    (Return (VBool true),
     mkMachine
       (mkWorld
          (store order (with_status "paid" (heap (world m) order)) (heap (world m)))
          (next_ref (world m))
          (log (world m) ++
             ["--- Memulai Checkout untuk " ++ customer_name (heap (world m) order)
                ++ " ---";
              payment_line c;
              "Notif: Mengirim email konfirmasi ke "
                ++ customer_name (heap (world m) order) ++ ".";
              "Checkout Sukses. Transaksi selesai."])
          (stdout (world m)))
       (services m) (next_service m)
       (trace m ++
          [Called_process order (heap (world m) order) (Return (VBool true));
           Assigned_status order "paid";
           Called_send order (with_status "paid" (heap (world m) order))
             (Return VNone)])).
Proof.
  intros Hsvc.
  rewrite run_checkout_runs; cbv zeta.
  rewrite Hsvc; simpl.
  destruct c; simpl; unfold closed, marked_paid, store; simpl;
    rewrite Nat.eqb_refl; simpl; rewrite <- !app_assoc; reflexivity.
Qed.

(** ** Success path *)

(** C1, as amended.  For every order whose status is "open" and every
    injected payment strategy and notifier: if [process(order)] reports
    success, and the notifier's [send(order)] then returns without changing
    the order's status, then [run_checkout(order)] returns [True], the
    order's status is "paid" afterwards, and [send] was invoked exactly once,
    with that same order.  Nothing is asked of the strategies' classes: the
    coordinator is the same for every implementation of the contracts. *)
Theorem checkout_success (self order : ref) (m : Machine) (v u : value) (w2 w4 : World) :
  status (heap (world m) order) = "open" ->
  process (payment_processor (services m self)) order (at_payment order (world m))
    = (Return v, w2) ->
  truthy v = true ->
  send (notifier (services m self)) order (marked_paid order w2) = (Return u, w4) ->
  status (heap w4 order) = status (heap (marked_paid order w2) order) ->
  let m' := snd (run_checkout self order m) in
  fst (run_checkout self order m) = Return (VBool true) /\
  status (heap (world m') order) = "paid" /\
  sends (since m m') = [order].
Proof.
  intros _ Hp Hv Hs Hkeep m'.
  subst m'.
  rewrite (run_checkout_paid self order m v u w2 w4 Hp Hv Hs); simpl.
  split; [reflexivity|]. split.
  - rewrite Hkeep. apply status_marked_paid.
  - rewrite since_app. reflexivity.
Qed.

(** The credit-card processor and the e-mail notifier on Andi's order. *)
Lemma checkout_success_witness :
  let m := desk CreditCardProcessor EmailNotifier "Andi" 500000 None in
  status (heap (world m) 0) = "open" /\
  fst (run_checkout 0 0 m) = Return (VBool true) /\
  status (heap (world (snd (run_checkout 0 0 m))) 0) = "paid" /\
  sends (since m (snd (run_checkout 0 0 m))) = [0].
Proof.
  split; [reflexivity|].
  apply (checkout_success 0 0
           (desk CreditCardProcessor EmailNotifier "Andi" 500000 None)
           (VBool true) VNone
           (snd (process CreditCardProcessor 0
                   (at_payment 0 (world (desk CreditCardProcessor EmailNotifier
                                           "Andi" 500000 None)))))
           (snd (send EmailNotifier 0
                   (marked_paid 0
                      (snd (process CreditCardProcessor 0
                              (at_payment 0 (world (desk CreditCardProcessor
                                                      EmailNotifier "Andi" 500000
                                                      None)))))))));
    reflexivity.
Defined.

(** C1 as it is written fails for a notifier that the claim does not rule
    out.  With [ReopeningNotifier] the order is open, [process] reports
    success, and the order is open again after [run_checkout]; with
    [UnreachableNotifier] [run_checkout] does not return [True]: the
    exception of [send] leaves it. *)
Lemma checkout_success_counterexample :
  let m := desk CreditCardProcessor ReopeningNotifier "Andi" 500000 None in
  let m'' := desk CreditCardProcessor UnreachableNotifier "Andi" 500000 None in
  (status (heap (world m) 0) = "open" /\
   fst (process (payment_processor (services m 0)) 0 (at_payment 0 (world m)))
     = Return (VBool true) /\
   fst (run_checkout 0 0 m) = Return (VBool true) /\
   status (heap (world (snd (run_checkout 0 0 m))) 0) = "open" /\
   status (heap (world (snd (run_checkout 0 0 m))) 0) <> "paid") /\
  (status (heap (world m'') 0) = "open" /\
   fst (process (payment_processor (services m'' 0)) 0 (at_payment 0 (world m'')))
     = Return (VBool true) /\
   fst (run_checkout 0 0 m'') = Raise "mail server unreachable" /\
   fst (run_checkout 0 0 m'') <> Return (VBool true) /\
   status (heap (world (snd (run_checkout 0 0 m''))) 0) = "paid").
Proof.
  cbv zeta.
  repeat split; try reflexivity; vm_compute; discriminate.
Qed.

(** The result of [process] is only tested for truthiness: a receipt number
    counts as success, and [run_checkout] itself returns [True]. *)
Example checkout_with_a_receipt :
  let m := desk ReceiptProcessor EmailNotifier "Andi" 500000 None in
  fst (run_checkout 0 0 m) = Return (VBool true) /\
  heap (world (snd (run_checkout 0 0 m))) 0 = mkOrder "Andi" 500000 "paid" /\
  trace (snd (run_checkout 0 0 m)) =
    [Called_process 0 (mkOrder "Andi" 500000 "open") (Return (VStr "receipt-001"));
     Assigned_status 0 "paid";
     Called_send 0 (mkOrder "Andi" 500000 "paid") (Return VNone)].
Proof.
  repeat split; reflexivity.
Qed.

(** ** Failure path *)

(** C2.  For every order whose status is "open" and every injected payment
    strategy and notifier: if [process(order)] reports failure (returns
    something falsy), having left the order as it was, which is what the
    PaymentProcessor contract asks of every strategy, then after
    [run_checkout(order)] the order is unchanged, its status is still
    "open", the coordinator has not invoked [send], and the result is
    [False].  The coordinator leaves the world exactly as [process] left
    it. *)
Theorem checkout_failure (self order : ref) (m : Machine) (v : value) (w2 : World) :
  status (heap (world m) order) = "open" ->
  process (payment_processor (services m self)) order (at_payment order (world m))
    = (Return v, w2) ->
  truthy v = false ->
  heap w2 order = heap (world m) order ->
  let m' := snd (run_checkout self order m) in
  fst (run_checkout self order m) = Return (VBool false) /\
  world m' = w2 /\
  heap (world m') order = heap (world m) order /\
  status (heap (world m') order) = "open" /\
  sends (since m m') = [] /\
  writes (since m m') = [].
Proof.
  intros Hopen Hp Hv Hsame m'.
  subst m'.
  rewrite (run_checkout_payment_refused self order m v w2 Hp Hv); simpl.
  rewrite since_app, Hsame, Hopen; simpl.
  repeat split; reflexivity.
Qed.

(** Scenario C: Cici's order and a strategy that reports failure. *)
Lemma checkout_failure_witness :
  let m := desk RefusingProcessor EmailNotifier "Cici" 250000 (Some "open") in
  status (heap (world m) 0) = "open" /\
  fst (run_checkout 0 0 m) = Return (VBool false) /\
  world (snd (run_checkout 0 0 m)) = at_payment 0 (world m) /\
  heap (world (snd (run_checkout 0 0 m))) 0 = heap (world m) 0 /\
  status (heap (world (snd (run_checkout 0 0 m))) 0) = "open" /\
  sends (since m (snd (run_checkout 0 0 m))) = [] /\
  writes (since m (snd (run_checkout 0 0 m))) = [].
Proof.
  split; [reflexivity|].
  apply (checkout_failure 0 0
           (desk RefusingProcessor EmailNotifier "Cici" 250000 (Some "open"))
           (VBool false)
           (at_payment 0 (world (desk RefusingProcessor EmailNotifier "Cici" 250000
                                   (Some "open")))));
    reflexivity.
Defined.

(** ** The life of a status *)

Lemma paid_after_payment_app (b : option event) (t l : list event) :
  paid_after_payment b t = true ->
  (forall b', paid_after_payment b' l = true) ->
  paid_after_payment b (t ++ l) = true.
Proof.
  revert b.
  induction t as [|e t IH]; intros b Ht Hl; simpl in *.
  - apply Hl.
  - apply andb_true_iff in Ht as [He Ht].
    rewrite He; simpl. apply IH; assumption.
Qed.

Lemma sound_boot : sound boot.
Proof.
  repeat split; simpl; intros; try lia; reflexivity.
Qed.

(** One operation: the status of an existing order stays, or goes from
    "open" to "paid" in a checkout of that order whose payment call
    reported success. *)
Lemma perform_status (m : Machine) (o : op) (r : ref) :
  sound m ->
  enabled m o = true ->
  r < next_ref (world m) ->
  let m' := snd (perform o m) in
  status (heap (world m') r) = status (heap (world m) r) \/
  (status (heap (world m) r) = "open" /\
   status (heap (world m') r) = "paid" /\
   exists self seen v rest,
     o = Checkout self r /\ truthy v = true /\
     since m m' = Called_process r seen (Return v) :: Assigned_status r "paid" :: rest).
Proof.
  intros (Hsvc & Hst & _) Hen Hr; cbv zeta.
  destruct o as [name price|c|msg|self order|c order|order]; simpl in Hen.
  - left. simpl. unfold store.
    destruct (Nat.eqb_spec r (next_ref (world m))); [lia | reflexivity].
  - left. reflexivity.
  - left. reflexivity.
  - apply andb_true_iff in Hen as [Hself Horder].
    apply Nat.ltb_lt in Hself.
    destruct (Hsvc self Hself) as [c Hc].
    unfold perform, bind.
    rewrite (run_checkout_in_program self order m c Hc); simpl.
    unfold store.
    destruct (Nat.eqb_spec r order) as [->|Hne]; [|left; reflexivity].
    destruct (Hst order Hr) as [Hopen|Hpaid].
    + right. split; [exact Hopen|]. split; [reflexivity|].
      exists self, (heap (world m) order), (VBool true).
      eexists. split; [reflexivity|]. split; [reflexivity|].
      rewrite since_app. reflexivity.
    + left. simpl. symmetry. exact Hpaid.
  - left. destruct c; reflexivity.
  - left. reflexivity.
Qed.

Lemma sound_step (m : Machine) (o : op) :
  sound m -> enabled m o = true -> sound (snd (perform o m)).
Proof.
  intros Hsound Hen.
  pose proof Hsound as (Hsvc & Hst & Htr).
  destruct o as [name price|c|msg|self order|c order|order]; simpl in Hen.
  - split; [exact Hsvc|]. split; [|exact Htr].
    simpl. intros r Hr. unfold store.
    destruct (Nat.eqb_spec r (next_ref (world m))) as [_|Hne].
    + left. reflexivity.
    + apply Hst. lia.
  - split; [|split; [exact Hst | exact Htr]].
    simpl. intros self Hself.
    destruct (Nat.eqb_spec self (next_service m)) as [_|Hne].
    + exists c. reflexivity.
    + apply Hsvc. lia.
  - split; [exact Hsvc|]. split; [exact Hst | exact Htr].
  - apply andb_true_iff in Hen as [Hself Horder].
    apply Nat.ltb_lt in Hself.
    destruct (Hsvc self Hself) as [c Hc].
    unfold perform, bind.
    rewrite (run_checkout_in_program self order m c Hc); simpl.
    split; [exact Hsvc|]. split.
    + simpl. intros r Hr. unfold store.
      destruct (Nat.eqb_spec r order) as [_|Hne].
      * right. reflexivity.
      * apply Hst. exact Hr.
    + simpl. apply paid_after_payment_app; [exact Htr|].
      intros b'. simpl. rewrite Nat.eqb_refl. reflexivity.
  - destruct c; (split; [exact Hsvc|]; split; [exact Hst | exact Htr]).
  - split; [exact Hsvc|]. split; [exact Hst | exact Htr].
Qed.

Lemma reachable_sound (m : Machine) : reachable m -> sound m.
Proof.
  induction 1 as [|m o _ IH Hen].
  - exact sound_boot.
  - exact (sound_step m o IH Hen).
Qed.

Lemma run_ops_reachable (ops : list op) (m : Machine) :
  reachable m -> allowed ops m = true -> reachable (run_ops ops m).
Proof.
  revert m.
  induction ops as [|o ops IH]; intros m Hm Hok; simpl in *.
  - exact Hm.
  - apply andb_true_iff in Hok as [Ho Hops].
    apply IH; [|exact Hops].
    apply reachable_step; assumption.
Qed.

Lemma main_runs_script : snd (main boot) = run_ops script boot.
Proof.
  vm_compute. reflexivity.
Qed.

(** The script is a run of the program. *)
Lemma main_reachable : reachable (snd (main boot)).
Proof.
  rewrite main_runs_script.
  apply run_ops_reachable; [exact reachable_boot|].
  vm_compute. reflexivity.
Qed.

(** C3.  An order constructed without a status starts "open".  In every
    machine the program can be in, every order constructed so far is "open"
    or "paid", and every assignment the coordinator has made assigned "paid",
    straight after a call of [process] on that order that reported success.
    Whatever the program does next, the status of an order stays as it is or
    goes from "open" to "paid" (in a checkout of that order, after the
    payment call reported success): never from "paid" back to "open". *)
Theorem status_lifecycle (m : Machine) :
  reachable m ->
  (forall name price, status (Order_init name price None) = "open") /\
  (forall r, r < next_ref (world m) ->
     status (heap (world m) r) = "open" \/ status (heap (world m) r) = "paid") /\
  paid_after_payment None (trace m) = true /\
  (forall o r, enabled m o = true -> r < next_ref (world m) ->
     let m' := snd (perform o m) in
     status (heap (world m') r) = status (heap (world m) r) \/
     (status (heap (world m) r) = "open" /\
      status (heap (world m') r) = "paid" /\
      exists self seen v rest,
        o = Checkout self r /\ truthy v = true /\
        since m m' = Called_process r seen (Return v) :: Assigned_status r "paid" :: rest)) /\
  (forall o r, enabled m o = true -> r < next_ref (world m) ->
     status (heap (world m) r) = "paid" ->
     status (heap (world (snd (perform o m))) r) = "paid").
Proof.
  intros Hreach.
  pose proof (reachable_sound m Hreach) as Hsound.
  pose proof Hsound as (_ & Hst & Htr).
  split; [reflexivity|]. split; [exact Hst|]. split; [exact Htr|]. split.
  - intros o r Hen Hr. exact (perform_status m o r Hsound Hen Hr).
  - intros o r Hen Hr Hpaid.
    destruct (perform_status m o r Hsound Hen Hr) as [Hsame|(Hopen & _)].
    + rewrite Hsame. exact Hpaid.
    + rewrite Hpaid in Hopen. discriminate.
Qed.

(** The machine the script ends in. *)
Lemma status_lifecycle_witness :
  reachable (snd (main boot)) /\
  (forall r, r < 2 ->
     status (heap (world (snd (main boot))) r) = "open" \/
     status (heap (world (snd (main boot))) r) = "paid") /\
  paid_after_payment None (trace (snd (main boot))) = true.
Proof.
  split; [exact main_reachable|].
  destruct (status_lifecycle (snd (main boot)) main_reachable) as (_ & Hst & Htr & _).
  split; [exact Hst | exact Htr].
Defined.

(** ** No guard on the status *)

(** C4, as amended.  [run_checkout] does not look at the order's status.
    For every order, whatever its status, and every strategies: [process] is
    invoked once, with that order; if it reports success, the coordinator
    assigns "paid" to the status and invokes [send] once with that order,
    and the result is [True] once [send] returns, while an exception of
    [send] leaves [run_checkout]; if it reports failure the result is
    [False], nothing is assigned and nothing is sent. *)
Theorem checkout_has_no_guard (self order : ref) (m : Machine) :
  let svc := services m self in
  let result := fst (run_checkout self order m) in
  let m' := snd (run_checkout self order m) in
  payments (since m m') = [order] /\
  match process (payment_processor svc) order (at_payment order (world m)) with
  | (Return v, w2) =>
      if truthy v then
        writes (since m m') = [(order, "paid")] /\
        sends (since m m') = [order] /\
        match send (notifier svc) order (marked_paid order w2) with
        | (Return _, _) => result = Return (VBool true)
        | (Raise e, _) => result = Raise e
        end
      else
        writes (since m m') = [] /\
        sends (since m m') = [] /\
        result = Return (VBool false)
  | (Raise e, _) =>
      writes (since m m') = [] /\
      sends (since m m') = [] /\
      result = Raise e
  end.
Proof.
  cbv zeta.
  rewrite run_checkout_runs; cbv zeta.
  destruct (process (payment_processor (services m self)) order
              (at_payment order (world m))) as [[v|e] w2].
  - destruct (truthy v).
    + destruct (send (notifier (services m self)) order (marked_paid order w2))
        as [[u|e] w4]; simpl; rewrite since_app; simpl; repeat split; reflexivity.
    + simpl; rewrite since_app; simpl; repeat split; reflexivity.
  - simpl; rewrite since_app; simpl; repeat split; reflexivity.
Qed.

(** C4 as it is written fails in its last promise.  On an order that is
    already "paid", with the credit-card processor reporting success and a
    notifier whose [send] raises, [process] and [send] are both invoked and
    "paid" is assigned, but [run_checkout] does not return [True]. *)
Lemma checkout_has_no_guard_counterexample :
  let m := desk CreditCardProcessor UnreachableNotifier "Andi" 500000 (Some "paid") in
  status (heap (world m) 0) = "paid" /\
  fst (process (payment_processor (services m 0)) 0 (at_payment 0 (world m)))
    = Return (VBool true) /\
  payments (since m (snd (run_checkout 0 0 m))) = [0] /\
  writes (since m (snd (run_checkout 0 0 m))) = [(0, "paid")] /\
  sends (since m (snd (run_checkout 0 0 m))) = [0] /\
  fst (run_checkout 0 0 m) = Raise "mail server unreachable" /\
  fst (run_checkout 0 0 m) <> Return (VBool true).
Proof.
  cbv zeta.
  repeat split; try reflexivity; vm_compute; discriminate.
Qed.

(** The same order with the source's own notifier: paid once more. *)
Example checkout_of_a_paid_order :
  let m := desk CreditCardProcessor EmailNotifier "Andi" 500000 (Some "paid") in
  let m' := snd (run_checkout 0 0 m) in
  fst (run_checkout 0 0 m) = Return (VBool true) /\
  log (world m') =
    ["--- Memulai Checkout untuk Andi ---";
     "Payment: Memproses Kartu Kredit.";
     "Notif: Mengirim email konfirmasi ke Andi.";
     "Checkout Sukses. Transaksi selesai."] /\
  trace m' =
    [Called_process 0 (mkOrder "Andi" 500000 "paid") (Return (VBool true));
     Assigned_status 0 "paid";
     Called_send 0 (mkOrder "Andi" 500000 "paid") (Return VNone)] /\
  heap (world m') 0 = mkOrder "Andi" 500000 "paid".
Proof.
  repeat split; reflexivity.
Qed.

(** ** What the coordinator changes *)


(** Every run of [run_checkout] with strategies that hold coordinators.  The
    notifier is the one the coordinator refers to when [process] has
    returned. *)
Lemma held_run_checkout_runs (objects : Held.Objects) (self order : ref)
    (m : Held.Machine) :
  Held.run_checkout objects self order m =
    let seen := heap (Held.world (Held.reach m)) order in
    let s1 := Held.mkReach (at_payment order (Held.world (Held.reach m)))
                (Held.services (Held.reach m)) in
    match Held.process_of objects
            (Held.payment_processor (Held.services (Held.reach m) self)) order s1 with
    | (Raise e, s2) =>
        (Raise e,
         Held.mkMachine s2 (Held.trace m ++ [Called_process order seen (Raise e)]))
    | (Return v, s2) =>
        if truthy v then
          let s3 := Held.mkReach (marked_paid order (Held.world s2)) (Held.services s2) in
          match Held.send_of objects (Held.notifier (Held.services s2 self)) order s3 with
          | (Return u, s4) =>
              (Return (VBool true),
               Held.mkMachine
                 (Held.mkReach (closed (Held.world s4)) (Held.services s4))
                 (Held.trace m ++ [Called_process order seen (Return v);
                                   Assigned_status order "paid";
                                   Called_send order (heap (Held.world s3) order)
                                     (Return u)]))
          | (Raise e, s4) =>
              (Raise e,
               Held.mkMachine s4
                 (Held.trace m ++ [Called_process order seen (Return v);
                                   Assigned_status order "paid";
                                   Called_send order (heap (Held.world s3) order)
                                     (Raise e)]))
          end
        else
          (Return (VBool false),
           Held.mkMachine s2 (Held.trace m ++ [Called_process order seen (Return v)]))
    end.
Proof.
  cbv zeta.
  unfold Held.run_checkout, Held.assign_status, Held.emit, Held.lift, Held.in_world,
    Held.getself, Held.invoke, bind, pass, ret, getattr, setattr, logger_info,
    at_payment, marked_paid, closed; simpl.
  destruct (Held.process_of objects
              (Held.payment_processor (Held.services (Held.reach m) self)) order _)
    as [[v|e] s2]; simpl; [|reflexivity].
  destruct (truthy v); simpl; [|reflexivity].
  destruct (Held.send_of objects (Held.notifier (Held.services s2 self)) order _)
    as [[u|e] s4]; simpl; rewrite <- !app_assoc; reflexivity.
Qed.

(** With strategies that touch the world only, the coordinator of this
    section and the coordinator of the script do the same: the same result,
    the same world, the same record. *)
Lemma held_run_checkout_agrees (objects : Held.Objects) (self order : ref)
    (hm : Held.Machine) (m : Machine) :
  Held.world (Held.reach hm) = world m ->
  Held.trace hm = trace m ->
  (forall s,
     Held.process_of objects
       (Held.payment_processor (Held.services (Held.reach hm) self)) order s
     = Held.in_world (process (payment_processor (services m self)) order) s) ->
  (forall s,
     Held.send_of objects (Held.notifier (Held.services (Held.reach hm) self)) order s
     = Held.in_world (send (notifier (services m self)) order) s) ->
  fst (Held.run_checkout objects self order hm) = fst (run_checkout self order m) /\
  Held.world (Held.reach (snd (Held.run_checkout objects self order hm)))
    = world (snd (run_checkout self order m)) /\
  Held.trace (snd (Held.run_checkout objects self order hm))
    = trace (snd (run_checkout self order m)) /\
  Held.services (Held.reach (snd (Held.run_checkout objects self order hm)))
    = Held.services (Held.reach hm).
Proof.
  intros Hw Ht Hp Hs.
  rewrite held_run_checkout_runs, run_checkout_runs; cbv zeta.
  rewrite Hp. unfold Held.in_world; simpl.
  rewrite Hw, Ht.
  destruct (process (payment_processor (services m self)) order
              (at_payment order (world m))) as [[v|e] w2]; simpl.
  - destruct (truthy v); simpl.
    + rewrite Hs. unfold Held.in_world; simpl.
      destruct (send (notifier (services m self)) order (marked_paid order w2))
        as [[u|e] w4]; simpl; repeat split; reflexivity.
    + repeat split; reflexivity.
  - repeat split; reflexivity.
Qed.




(** ** Paid before notified *)

(** C6.  Whenever [run_checkout] invokes the notifier's [send(order)], the
    order's status is "paid" at that moment: the assignment of "paid" comes
    first, and the call follows it at once.  This holds for every
    strategies and every order. *)
Theorem send_sees_paid (self order : ref) (m : Machine) :
  let m' := snd (run_checkout self order m) in
  paid_before_send None (since m m') = true /\
  Forall (fun e => match e with
                   | Called_send o seen _ => o = order /\ status seen = "paid"
                   | _ => True
                   end) (since m m').
Proof.
  cbv zeta.
  rewrite run_checkout_runs; cbv zeta.
  destruct (process (payment_processor (services m self)) order
              (at_payment order (world m))) as [[v|e] w2].
  - destruct (truthy v).
    + destruct (send (notifier (services m self)) order (marked_paid order w2))
        as [[u|e] w4]; simpl; rewrite since_app; simpl;
        unfold store; rewrite Nat.eqb_refl; simpl;
        (split; [reflexivity | repeat constructor]).
    + simpl; rewrite since_app; simpl. split; [reflexivity | repeat constructor].
  - simpl; rewrite since_app; simpl. split; [reflexivity | repeat constructor].
Qed.

(** ** The source's strategies *)

(** C7.  [CreditCardProcessor.process] and [QrisProcessor.process] return
    [True] for every order, in every world.  So scenario 1 (Andi's order,
    credit card) and scenario 2 (Budi's order, QRIS) each end with
    [run_checkout] returning [True], the order "paid" and one notification
    sent, wherever they are started; and so does the script as a whole. *)
Theorem source_processors_succeed :
  (forall order w, fst (process CreditCardProcessor order w) = Return (VBool true)) /\
  (forall order w, fst (process QrisProcessor order w) = Return (VBool true)) /\
  (forall m,
     let andi_order := next_ref (world m) in
     let m' := snd (scenario_1 m) in
     fst (scenario_1 m) = Return (andi_order, VBool true) /\
     heap (world m') andi_order = mkOrder "Andi" 500000 "paid" /\
     sends (since m m') = [andi_order]) /\
  (forall m,
     let budi_order := next_ref (world m) in
     let m' := snd (scenario_2 m) in
     fst (scenario_2 m) = Return (budi_order, VBool true) /\
     heap (world m') budi_order = mkOrder "Budi" 100000 "paid" /\
     sends (since m m') = [budi_order]) /\
  fst (main boot) = Return ((0, VBool true), (1, VBool true)) /\
  heap (world (snd (main boot))) 0 = mkOrder "Andi" 500000 "paid" /\
  heap (world (snd (main boot))) 1 = mkOrder "Budi" 100000 "paid" /\
  sends (trace (snd (main boot))) = [0; 1].
Proof.
  split; [reflexivity|]. split; [reflexivity|].
  split; [|split].
  - intros m; cbv zeta.
    unfold scenario_1, new_CheckoutService, bind, lift; simpl.
    rewrite (run_checkout_in_program _ _ _ CreditCard)
      by (simpl; rewrite Nat.eqb_refl; reflexivity).
    simpl. rewrite since_app; simpl.
    unfold store; rewrite !Nat.eqb_refl.
    repeat split; reflexivity.
  - intros m; cbv zeta.
    unfold scenario_2, new_CheckoutService, bind, lift; simpl.
    rewrite (run_checkout_in_program _ _ _ Qris)
      by (simpl; rewrite Nat.eqb_refl; reflexivity).
    simpl. rewrite since_app; simpl.
    unfold store; rewrite !Nat.eqb_refl.
    repeat split; reflexivity.
  - repeat split; reflexivity.
Qed.

(** C8.  [CreditCardProcessor.process] and [QrisProcessor.process] leave
    every order as it was, status included: the store of orders after the
    call is the store before it, and the one thing added to the world is a
    line of the log. *)
Theorem source_processors_frame (order : ref) (w : World) :
  heap (snd (process CreditCardProcessor order w)) = heap w /\
  snd (process CreditCardProcessor order w)
    = mkWorld (heap w) (next_ref w)
        (log w ++ ["Payment: Memproses Kartu Kredit."]) (stdout w) /\
  heap (snd (process QrisProcessor order w)) = heap w /\
  snd (process QrisProcessor order w)
    = mkWorld (heap w) (next_ref w) (log w ++ ["Payment: Memproses QRIS."]) (stdout w).
Proof.
  repeat split; reflexivity.
Qed.

(** ** The [pass] statement *)

(** C9.  The [pass] statement at the head of [run_checkout] is inert:
    [run_checkout] and [run_checkout] without it give the same result and
    leave the same machine (the same orders, the same log, the same calls
    of the strategies in the same order), from every machine. *)
Theorem pass_is_inert (self order : ref) (m : Machine) :
  run_checkout self order m = run_checkout_without_pass self order m.
Proof.
  unfold run_checkout, run_checkout_without_pass.
  unfold pass.
  reflexivity.
Qed.

(** ** The notifier of the source *)

(** C10.  [EmailNotifier.send] returns [None] and leaves every order as it
    was: it reads [customer_name] and adds one line to the log.  So a
    status that the coordinator has just set to "paid" is "paid" after the
    notification. *)
Theorem email_notifier_frame (order : ref) (w : World) :
  fst (send EmailNotifier order w) = Return VNone /\
  heap (snd (send EmailNotifier order w)) = heap w /\
  snd (send EmailNotifier order w)
    = mkWorld (heap w) (next_ref w)
        (log w ++ ["Notif: Mengirim email konfirmasi ke "
                   ++ customer_name (heap w order) ++ "."]) (stdout w) /\
  status (heap (snd (send EmailNotifier order (marked_paid order w))) order) = "paid".
Proof.
  split; [reflexivity|]. split; [reflexivity|]. split; [reflexivity|].
  change (status (heap (marked_paid order w) order) = "paid").
  apply status_marked_paid.
Qed.

(** * Further properties *)

(** ** Auxiliary facts *)

Lemma sends_app (t l : list event) : sends (t ++ l) = (sends t ++ sends l)%list.
Proof.
  induction t as [|e t IH]; simpl; [reflexivity|].
  destruct e; simpl; rewrite IH; reflexivity.
Qed.

Lemma paid_before_send_app (b : option event) (t l : list event) :
  paid_before_send b t = true ->
  (forall b', paid_before_send b' l = true) ->
  paid_before_send b (t ++ l) = true.
Proof.
  revert b.
  induction t as [|e t IH]; intros b Ht Hl; simpl in *.
  - apply Hl.
  - apply andb_true_iff in Ht as [He Ht].
    rewrite He; simpl. apply IH; assumption.
Qed.

(** What one call of [run_checkout] adds to the record passes both checks,
    whatever was recorded before it. *)
Lemma run_checkout_events_disciplined (self order : ref) (m : Machine) :
  exists l,
    trace (snd (run_checkout self order m)) = (trace m ++ l)%list /\
    (forall b, paid_before_send b l = true) /\
    (forall b, paid_after_payment b l = true).
Proof.
  rewrite run_checkout_runs; cbv zeta.
  destruct (process (payment_processor (services m self)) order
              (at_payment order (world m))) as [[v|e] w2].
  - destruct (truthy v) eqn:Hv.
    + destruct (send (notifier (services m self)) order (marked_paid order w2))
        as [[u|e] w4]; simpl; eexists; (split; [reflexivity|]);
        split; intros b; simpl; unfold store;
        rewrite ?Nat.eqb_refl, ?Hv; reflexivity.
    + simpl; eexists; (split; [reflexivity|]); split; intros b; reflexivity.
  - simpl; eexists; (split; [reflexivity|]); split; intros b; reflexivity.
Qed.

(** ** Failure of the notification *)

(** X1.  There is no rollback.  When [process] reported success and [send]
    then raises (without touching the status), [run_checkout] ends with
    that exception, the order stays "paid", and the coordinator adds
    nothing after the failed call: the closing line is not logged. *)
Theorem notification_failure_keeps_paid (self order : ref) (m : Machine) (v : value)
    (e : exn) (w2 w4 : World) :
  process (payment_processor (services m self)) order (at_payment order (world m))
    = (Return v, w2) ->
  truthy v = true ->
  send (notifier (services m self)) order (marked_paid order w2) = (Raise e, w4) ->
  status (heap w4 order) = status (heap (marked_paid order w2) order) ->
  let m' := snd (run_checkout self order m) in
  fst (run_checkout self order m) = Raise e /\
  status (heap (world m') order) = "paid" /\
  world m' = w4 /\
  writes (since m m') = [(order, "paid")].
Proof.
  intros Hp Hv Hs Hkeep m'; subst m'.
  rewrite (run_checkout_notification_raises self order m v e w2 w4 Hp Hv Hs); simpl.
  rewrite since_app, Hkeep, status_marked_paid; simpl.
  repeat split; reflexivity.
Qed.

Lemma notification_failure_keeps_paid_witness :
  let m := desk CreditCardProcessor UnreachableNotifier "Andi" 500000 None in
  let m' := snd (run_checkout 0 0 m) in
  fst (run_checkout 0 0 m) = Raise "mail server unreachable" /\
  status (heap (world m') 0) = "paid" /\
  world m' = marked_paid 0 (snd (process CreditCardProcessor 0 (at_payment 0 (world m)))) /\
  writes (since m m') = [(0, "paid")].
Proof.
  apply (notification_failure_keeps_paid 0 0
           (desk CreditCardProcessor UnreachableNotifier "Andi" 500000 None)
           (VBool true) "mail server unreachable"
           (snd (process CreditCardProcessor 0
                   (at_payment 0 (world (desk CreditCardProcessor UnreachableNotifier
                                           "Andi" 500000 None)))))
           (marked_paid 0
              (snd (process CreditCardProcessor 0
                      (at_payment 0 (world (desk CreditCardProcessor
                                              UnreachableNotifier "Andi" 500000
                                              None)))))));
    reflexivity.
Defined.

(** ** A checkout with the source's classes *)

(** X2.  With one of the source's processors and the e-mail notifier, a
    checkout writes exactly four lines to the log, in this order: the
    opening line with the customer's name, the processor's line, the
    notifier's line with the customer's name, the closing line.  It writes
    nothing to standard output and constructs no order. *)
Theorem checkout_transcript (self order : ref) (m : Machine) (c : payment_class) :
  services m self = Build_CheckoutService (payment_object c) EmailNotifier ->
  let m' := snd (run_checkout self order m) in
  log (world m') =
    app (log (world m))
      ["--- Memulai Checkout untuk " ++ customer_name (heap (world m) order) ++ " ---";
       payment_line c;
       "Notif: Mengirim email konfirmasi ke "
         ++ customer_name (heap (world m) order) ++ ".";
       "Checkout Sukses. Transaksi selesai."] /\
  stdout (world m') = stdout (world m) /\
  next_ref (world m') = next_ref (world m).
Proof.
  intros Hsvc; cbv zeta.
  rewrite (run_checkout_in_program self order m c Hsvc); simpl.
  repeat split; reflexivity.
Qed.

Lemma checkout_transcript_witness :
  let m := desk QrisProcessor EmailNotifier "Budi" 100000 None in
  let m' := snd (run_checkout 0 0 m) in
  log (world m') =
    ["--- Memulai Checkout untuk Budi ---";
     "Payment: Memproses QRIS.";
     "Notif: Mengirim email konfirmasi ke Budi.";
     "Checkout Sukses. Transaksi selesai."] /\
  stdout (world m') = [] /\
  next_ref (world m') = 1.
Proof.
  apply (checkout_transcript 0 0 (desk QrisProcessor EmailNotifier "Budi" 100000 None)
           Qris).
  reflexivity.
Defined.

(** X3.  With the source's classes, a checkout changes one field of one
    object: the order it is given gets the status "paid" and keeps its name
    and price, and every other order is left exactly as it was. *)
Theorem checkout_touches_one_order (self order : ref) (m : Machine) (c : payment_class) :
  services m self = Build_CheckoutService (payment_object c) EmailNotifier ->
  let m' := snd (run_checkout self order m) in
  heap (world m') order = with_status "paid" (heap (world m) order) /\
  customer_name (heap (world m') order) = customer_name (heap (world m) order) /\
  total_price (heap (world m') order) = total_price (heap (world m) order) /\
  forall r, r <> order -> heap (world m') r = heap (world m) r.
Proof.
  intros Hsvc; cbv zeta.
  rewrite (run_checkout_in_program self order m c Hsvc); simpl.
  unfold store; rewrite Nat.eqb_refl.
  repeat split; try reflexivity.
  intros r Hr.
  destruct (Nat.eqb_spec r order) as [Heq|_]; [contradiction | reflexivity].
Qed.

(** Andi's order is checked out after Budi's has been constructed: Budi's
    stays open. *)
Lemma checkout_touches_one_order_witness :
  let m := snd (lift (new_Order "Budi" 100000 None)
                  (desk CreditCardProcessor EmailNotifier "Andi" 500000 None)) in
  let m' := snd (run_checkout 0 0 m) in
  heap (world m') 0 = mkOrder "Andi" 500000 "paid" /\
  heap (world m') 1 = mkOrder "Budi" 100000 "open".
Proof.
  cbv zeta.
  destruct (checkout_touches_one_order 0 0
              (snd (lift (new_Order "Budi" 100000 None)
                      (desk CreditCardProcessor EmailNotifier "Andi" 500000 None)))
              CreditCard eq_refl) as (Hpaid & _ & _ & Hrest).
  split; [exact Hpaid|].
  rewrite (Hrest 1) by discriminate.
  reflexivity.
Defined.

(** X4.  With the source's classes, a second checkout of the same order is
    not refused and is not silent: it returns [True] again, leaves every
    order as the first checkout left it, and the customer is notified a
    second time (and "paid" is assigned a second time). *)
Theorem checkout_twice (self order : ref) (m : Machine) (c : payment_class) :
  services m self = Build_CheckoutService (payment_object c) EmailNotifier ->
  let m1 := snd (run_checkout self order m) in
  let m2 := snd (run_checkout self order m1) in
  fst (run_checkout self order m1) = Return (VBool true) /\
  (forall r, heap (world m2) r = heap (world m1) r) /\
  sends (since m m2) = [order; order] /\
  writes (since m m2) = [(order, "paid"); (order, "paid")] /\
  payments (since m m2) = [order; order].
Proof.
  intros Hsvc; cbv zeta.
  pose proof (run_checkout_in_program self order m c Hsvc) as H1.
  assert (Hsvc1 : services (snd (run_checkout self order m)) self
                  = Build_CheckoutService (payment_object c) EmailNotifier)
    by (rewrite H1; exact Hsvc).
  rewrite (run_checkout_in_program self order _ c Hsvc1).
  rewrite H1; simpl.
  rewrite <- !app_assoc, since_app; simpl.
  repeat split; try reflexivity.
  intros r. unfold store.
  rewrite Nat.eqb_refl.
  destruct (Nat.eqb_spec r order) as [_|_]; reflexivity.
Qed.

Lemma checkout_twice_witness :
  let m := desk CreditCardProcessor EmailNotifier "Andi" 500000 None in
  let m2 := snd (run_checkout 0 0 (snd (run_checkout 0 0 m))) in
  fst (run_checkout 0 0 (snd (run_checkout 0 0 m))) = Return (VBool true) /\
  sends (since m m2) = [0; 0].
Proof.
  cbv zeta.
  destruct (checkout_twice 0 0 (desk CreditCardProcessor EmailNotifier "Andi" 500000 None)
              CreditCard eq_refl) as (Hres & _ & Hsends & _).
  split; [exact Hres | exact Hsends].
Defined.

(** ** What holds throughout the program *)

(** X5.  In every machine the program can be in, the orders the coordinator
    has sent a notification for are exactly the orders that are "paid": no
    customer is told about an order that is not paid, and no order is paid
    without its customer being told. *)
Theorem paid_iff_notified (m : Machine) :
  reachable m ->
  (forall r, In r (sends (trace m)) ->
     r < next_ref (world m) /\ status (heap (world m) r) = "paid") /\
  (forall r, r < next_ref (world m) -> status (heap (world m) r) = "paid" ->
     In r (sends (trace m))).
Proof.
  induction 1 as [|m o Hreach [Hn Hp] Hen].
  - split; simpl; intros r H; [contradiction | lia].
  - pose proof (reachable_sound m Hreach) as (Hsvc & _ & _).
    destruct o as [name price|c|msg|self order|c order|order]; simpl in Hen.
    + simpl. split.
      * intros r Hin. destruct (Hn r Hin) as [Hlt Hpaid].
        split; [lia|]. unfold store.
        destruct (Nat.eqb_spec r (next_ref (world m))); [lia | exact Hpaid].
      * intros r Hlt. unfold store.
        destruct (Nat.eqb_spec r (next_ref (world m))) as [_|Hne].
        -- simpl. discriminate.
        -- apply Hp. lia.
    + split; assumption.
    + split; assumption.
    + apply andb_true_iff in Hen as [Hself Horder].
      apply Nat.ltb_lt in Hself. apply Nat.ltb_lt in Horder.
      destruct (Hsvc self Hself) as [c Hc].
      unfold perform, bind.
      rewrite (run_checkout_in_program self order m c Hc); simpl.
      rewrite sends_app; simpl. split.
      * intros r Hin. unfold store.
        apply in_app_or in Hin as [Hin|[<-|[]]].
        -- destruct (Hn r Hin) as [Hlt Hpaid]. split; [exact Hlt|].
           destruct (Nat.eqb_spec r order); [reflexivity | exact Hpaid].
        -- split; [exact Horder|]. rewrite Nat.eqb_refl. reflexivity.
      * intros r Hlt. unfold store.
        destruct (Nat.eqb_spec r order) as [->|_]; intros Hpaid; apply in_or_app.
        -- right. left. reflexivity.
        -- left. apply Hp; assumption.
    + destruct c; split; assumption.
    + split; assumption.
Qed.

(** At the end of the script: Andi's and Budi's orders, notified and paid. *)
Lemma paid_iff_notified_witness :
  reachable (snd (main boot)) /\
  sends (trace (snd (main boot))) = [0; 1] /\
  (forall r, In r (sends (trace (snd (main boot)))) ->
     r < next_ref (world (snd (main boot))) /\
     status (heap (world (snd (main boot))) r) = "paid").
Proof.
  split; [exact main_reachable|]. split; [reflexivity|].
  exact (proj1 (paid_iff_notified (snd (main boot)) main_reachable)).
Defined.

(** X6.  Nothing the program does changes the name or the price of an
    order that exists, or the strategies of a coordinator that exists, and
    no object is ever lost: the counts of orders and coordinators only
    grow. *)
Theorem program_keeps_objects (m : Machine) (o : op) :
  reachable m ->
  enabled m o = true ->
  let m' := snd (perform o m) in
  (forall r, r < next_ref (world m) ->
     customer_name (heap (world m') r) = customer_name (heap (world m) r) /\
     total_price (heap (world m') r) = total_price (heap (world m) r)) /\
  (forall self, self < next_service m -> services m' self = services m self) /\
  next_ref (world m) <= next_ref (world m') /\
  next_service m <= next_service m'.
Proof.
  intros Hreach Hen; cbv zeta.
  pose proof (reachable_sound m Hreach) as (Hsvc & _ & _).
  destruct o as [name price|c|msg|self order|c order|order]; simpl in Hen.
  - simpl. repeat split; try lia; unfold store;
      destruct (Nat.eqb_spec r (next_ref (world m))); (lia || reflexivity).
  - simpl. repeat split; try lia.
    intros self Hself.
    destruct (Nat.eqb_spec self (next_service m)); [lia | reflexivity].
  - simpl. repeat split; lia.
  - apply andb_true_iff in Hen as [Hself Horder].
    apply Nat.ltb_lt in Hself.
    destruct (Hsvc self Hself) as [c Hc].
    unfold perform, bind.
    rewrite (run_checkout_in_program self order m c Hc); simpl.
    repeat split; try lia; unfold store;
      destruct (Nat.eqb_spec r order) as [->|_]; reflexivity.
  - destruct c; simpl; repeat split; lia.
  - simpl. repeat split; lia.
Qed.

(** Budi's order is constructed after Andi's has been paid. *)
Lemma program_keeps_objects_witness :
  let m := run_ops [New_order "Andi" 500000; New_service CreditCard; Checkout 0 0] boot in
  let m' := snd (perform (New_order "Budi" 100000) m) in
  reachable m /\
  customer_name (heap (world m') 0) = "Andi" /\
  total_price (heap (world m') 0) = 500000%Z /\
  next_ref (world m) <= next_ref (world m').
Proof.
  cbv zeta.
  assert (Hreach : reachable
            (run_ops [New_order "Andi" 500000; New_service CreditCard; Checkout 0 0] boot))
    by (apply run_ops_reachable; [exact reachable_boot | reflexivity]).
  split; [exact Hreach|].
  destruct (program_keeps_objects _ (New_order "Budi" 100000) Hreach eq_refl)
    as (Hfields & _ & Hgrow & _).
  destruct (Hfields 0 (Nat.lt_0_succ 0)) as [Hname Hprice].
  split; [exact Hname|]. split; [exact Hprice | exact Hgrow].
Defined.

(** ** Coordinators side by side *)

Lemma eqb_succ (n : nat) : Nat.eqb n (S n) = false.
Proof.
  apply Nat.eqb_neq. lia.
Qed.

(** X7.  Constructing a second coordinator does not disturb the first: the
    two are distinct objects, the first still holds the strategies it was
    given, and a checkout through it returns the same result, leaves the
    same world and records the same events as it would have before the
    second was constructed. *)
Theorem coordinators_are_independent (m : Machine) (pp pp' : IPaymentProcessor)
    (n n' : INotificationService) (order : ref) :
  let self := next_service m in
  let m1 := snd (new_CheckoutService pp n m) in
  let m2 := snd (new_CheckoutService pp' n' m1) in
  fst (new_CheckoutService pp n m) = Return self /\
  fst (new_CheckoutService pp' n' m1) = Return (S self) /\
  services m2 self = Build_CheckoutService pp n /\
  services m2 (S self) = Build_CheckoutService pp' n' /\
  fst (run_checkout self order m2) = fst (run_checkout self order m1) /\
  world (snd (run_checkout self order m2)) = world (snd (run_checkout self order m1)) /\
  trace (snd (run_checkout self order m2)) = trace (snd (run_checkout self order m1)).
Proof.
  cbv zeta.
  split; [reflexivity|]. split; [reflexivity|].
  split; [simpl; rewrite eqb_succ, Nat.eqb_refl; reflexivity|].
  split; [simpl; rewrite Nat.eqb_refl; reflexivity|].
  rewrite !run_checkout_runs; cbv zeta; simpl.
  rewrite eqb_succ, Nat.eqb_refl; simpl.
  destruct (process pp order (at_payment order (world m))) as [[v|e] w2];
    [destruct (truthy v);
       [destruct (send n order (marked_paid order w2)) as [[u|e] w4]|]|];
    repeat split; reflexivity.
Qed.

(** ** A processor that inherits the abstract body *)

(** X8.  The body of the abstract [process] returns [None], which is
    falsy: a processor that falls back on it is taken for a refused
    payment.  [run_checkout] returns [False], assigns nothing, notifies
    nobody, and leaves the world with the opening line logged and nothing
    else changed. *)
Theorem inherited_process_is_a_refusal (self order : ref) (m : Machine) :
  process (payment_processor (services m self)) = IPaymentProcessor_process ->
  let m' := snd (run_checkout self order m) in
  fst (run_checkout self order m) = Return (VBool false) /\
  world m' = at_payment order (world m) /\
  heap (world m') = heap (world m) /\
  payments (since m m') = [order] /\
  writes (since m m') = [] /\
  sends (since m m') = [].
Proof.
  intros Hbody; cbv zeta.
  rewrite (run_checkout_payment_refused self order m VNone
             (at_payment order (world m)));
    [|rewrite Hbody; reflexivity | reflexivity].
  simpl. rewrite since_app; simpl.
  repeat split; reflexivity.
Qed.

Lemma inherited_process_is_a_refusal_witness :
  let m := desk InheritingProcessor EmailNotifier "Cici" 250000 None in
  let m' := snd (run_checkout 0 0 m) in
  fst (run_checkout 0 0 m) = Return (VBool false) /\
  log (world m') = ["--- Memulai Checkout untuk Cici ---"] /\
  heap (world m') 0 = mkOrder "Cici" 250000 "open" /\
  sends (since m m') = [].
Proof.
  cbv zeta.
  destruct (inherited_process_is_a_refusal 0 0
              (desk InheritingProcessor EmailNotifier "Cici" 250000 None) eq_refl)
    as (Hres & Hworld & Hheap & _ & _ & Hsends).
  split; [exact Hres|]. split; [rewrite Hworld; reflexivity|].
  split; [rewrite Hheap; reflexivity | exact Hsends].
Defined.

(** ** Any history of checkouts *)

(** X9.  The order of the coordinator's steps holds over any history and
    for any strategies: if the record so far has every [send] made on a
    "paid" order straight after the assignment of "paid", and every
    assignment straight after a call of [process] that reported success,
    then so has the record after any further sequence of checkouts, whatever
    each of them returned or raised; and the record only grows. *)
Theorem checkout_history_disciplined (calls : list (ref * ref)) (m : Machine) :
  paid_before_send None (trace m) = true ->
  paid_after_payment None (trace m) = true ->
  let m' := checkouts calls m in
  paid_before_send None (trace m') = true /\
  paid_after_payment None (trace m') = true /\
  firstn (length (trace m)) (trace m') = trace m.
Proof.
  revert m.
  induction calls as [|[self order] calls IH]; intros m Hs Ha; cbv zeta; simpl.
  - repeat split; try assumption. apply firstn_all.
  - destruct (run_checkout_events_disciplined self order m) as (l & Hl & Hls & Hla).
    assert (Hs1 : paid_before_send None (trace (snd (run_checkout self order m))) = true)
      by (rewrite Hl; apply paid_before_send_app; assumption).
    assert (Ha1 : paid_after_payment None (trace (snd (run_checkout self order m))) = true)
      by (rewrite Hl; apply paid_after_payment_app; assumption).
    destruct (IH (snd (run_checkout self order m)) Hs1 Ha1) as (Hs2 & Ha2 & Hpre).
    split; [exact Hs2|]. split; [exact Ha2|].
    fold (checkouts calls (snd (run_checkout self order m))).
    rewrite Hl in Hpre.
    replace (length (trace m))
      with (Nat.min (length (trace m)) (length (trace m ++ l)))
      by (rewrite length_app; lia).
    rewrite <- firstn_firstn, Hpre.
    rewrite firstn_app, Nat.sub_diag, firstn_all; simpl.
    apply app_nil_r.
Qed.

(** Two checkouts through a coordinator whose notifier reopens the order. *)
Lemma checkout_history_disciplined_witness :
  let m := desk CreditCardProcessor ReopeningNotifier "Andi" 500000 None in
  let m' := checkouts [(0, 0); (0, 0)] m in
  paid_before_send None (trace m') = true /\
  paid_after_payment None (trace m') = true /\
  firstn (length (trace m)) (trace m') = trace m.
Proof.
  apply (checkout_history_disciplined [(0, 0); (0, 0)]
           (desk CreditCardProcessor ReopeningNotifier "Andi" 500000 None));
    reflexivity.
Defined.
